(** * ifs-parser: the language bindings of the IFS Cloud PL/SQL grammar

    The two files of the binding layer are embedded here:

    - [bindings/swift/TreeSitterIfsCloudParser/ifs_cloud_parser.h], a C
      header with one function declaration;
    - [bindings/python/binding.cc], a pybind11 extension module that
      re-declares that function and publishes it, together with two
      metadata attributes, to the Python runtime.

    The declarations are modelled as syntax (module [CDecl]) and the header
    line by line as the preprocessor reads it (module [Header]); the extension
    module is modelled by state passing over the attribute dictionary of the
    Python module object and the state of the C side, with the exceptions
    pybind11 raises where the binding leads to one.  The two C functions
    the binding calls are defined outside these files, so they are
    variables of the development. *)

From Stdlib Require Import ZArith Ascii String List.
From stdpp Require Import base gmap strings.
Import ListNotations.
Local Open Scope string_scope.

(* ===================================================================== *)
(** ** C declarations *)
(* ===================================================================== *)

Module CDecl.

(** The fragment of C types the two declarations are written in. The
    declarator [const T *] is a pointer to a const-qualified [T]. *)
Inductive c_type : Type :=
| Tnamed (id : string)
| Tconst (t : c_type)
| Tpointer (t : c_type).

(** The parameter clause as it is spelled: [(void)] or [()]. *)
Inductive param_clause : Type :=
| Params_void
| Params_empty.

(** The language the declaration is compiled as, and the language
    linkage it ends up with. *)
Inductive language_mode : Type := Mode_C | Mode_Cxx.
Inductive linkage : Type := Link_C | Link_Cxx.

Record fun_decl : Type := {
  decl_mode : language_mode;
  decl_linkage : linkage;
  decl_ret : c_type;
  decl_name : string;
  decl_params : param_clause
}.

#[global] Instance c_type_eq_dec : EqDecision c_type.
Proof. solve_decision. Defined.
#[global] Instance param_clause_eq_dec : EqDecision param_clause.
Proof. solve_decision. Defined.
#[global] Instance language_mode_eq_dec : EqDecision language_mode.
Proof. solve_decision. Defined.
#[global] Instance linkage_eq_dec : EqDecision linkage.
Proof. solve_decision. Defined.

(** [typedef struct TSLanguage TSLanguage;] (line 4 of the header; the
    Python binding gets the same typedef from [tree_sitter/api.h]). *)
Definition TSLanguage : c_type := Tnamed "TSLanguage".

(** ifs_cloud_parser.h, line 10:
    [const TSLanguage *tree_sitter_ifs_cloud_parser(void);]
    Lines 6-8 and 12-14 wrap it in [extern "C" { }] when the header is
    read as C++; read as C it has C linkage anyway. *)
Definition ifs_cloud_parser_h (mode : language_mode) : fun_decl := {|
  decl_mode := mode;
  decl_linkage := Link_C;
  decl_ret := Tpointer (Tconst TSLanguage);
  decl_name := "tree_sitter_ifs_cloud_parser";
  decl_params := Params_void
|}.

(** binding.cc, line 4:
    [extern "C" TSLanguage *tree_sitter_ifs_cloud_parser();] *)
Definition binding_cc : fun_decl := {|
  decl_mode := Mode_Cxx;
  decl_linkage := Link_C;
  decl_ret := Tpointer TSLanguage;
  decl_name := "tree_sitter_ifs_cloud_parser";
  decl_params := Params_empty
|}.

(** The parameter types a clause denotes: [(void)] is the empty list in
    both languages, [()] is the empty list in C++ and leaves the
    parameters unspecified in C. *)
Definition param_types (mode : language_mode) (p : param_clause)
  : option (list c_type) :=
  match p, mode with
  | Params_void, _ => Some []
  | Params_empty, Mode_Cxx => Some []
  | Params_empty, Mode_C => None
  end.

Record fun_type : Type := {
  ft_ret : c_type;
  ft_params : option (list c_type)
}.

#[global] Instance fun_type_eq_dec : EqDecision fun_type.
Proof. solve_decision. Defined.

Definition type_of_decl (d : fun_decl) : fun_type := {|
  ft_ret := decl_ret d;
  ft_params := param_types (decl_mode d) (decl_params d)
|}.

(** With C linkage the linker symbol is the identifier itself. *)
Definition link_symbol (d : fun_decl) : option string :=
  match decl_linkage d with
  | Link_C => Some (decl_name d)
  | Link_Cxx => None
  end.

(** Two declarations declare the same C-ABI entry point with the same
    function type. *)
Definition same_entry_point (d1 d2 : fun_decl) : Prop :=
  link_symbol d1 = link_symbol d2 /\ is_Some (link_symbol d1) /\
  type_of_decl d1 = type_of_decl d2.

(** Removing the qualifiers of the pointed-to type. *)
Fixpoint strip_const (t : c_type) : c_type :=
  match t with
  | Tnamed id => Tnamed id
  | Tconst t' => strip_const t'
  | Tpointer t' => Tpointer (strip_const t')
  end.

End CDecl.

(* ===================================================================== *)
(** ** The pybind11 extension module *)
(* ===================================================================== *)

(** The Python exceptions the module can lead to: a missing attribute, a
    call of an object that is no function, a function with no overload to
    take the call, pybind11's "Unable to convert function return value to
    a Python type!", and the ImportError the module initialiser turns
    pybind11's "Cannot overload existing non-function object" into. *)
Inductive py_error : Type :=
| AttributeError
| TypeError_not_callable
| TypeError_no_overload
| TypeError_return_value
| ImportError_overload.

Inductive py_result (A : Type) : Type :=
| Returned (a : A)
| Raised (e : py_error).

Arguments Returned {A} a.
Arguments Raised {A} e.

(** Where a pybind11 function was defined: on the module object [m] of
    this extension, or on another scope. *)
Inductive fn_scope : Type := Scope_this_module | Scope_elsewhere.

Section Binding.

(** [World] is the state of the C side of the process, [TSLanguage] the
    type of grammar-table handles ([TSLanguage *]). *)
Variables World TSLanguage : Type.

(** The two functions binding.cc calls and does not define.  A C function
    may read and change the C side, so both pass the world. *)
Variable tree_sitter_ifs_cloud_parser : World -> TSLanguage * World.
Variable tree_sitter_language_version : TSLanguage -> World -> Z * World.

(** One function given to [m.def]: the C++ function and its documentation
    string. *)
Record overload : Type := {
  ov_impl : World -> TSLanguage * World;
  ov_doc : string
}.

(** The Python objects a module object holds here: [None], strings,
    integers, and pybind11 functions with their chain of overloads. *)
Inductive py_object : Type :=
| PyNone
| PyStr (s : string)
| PyInt (z : Z)
| PyCppFunction (scope : fn_scope) (chain : list overload).

(** The interpreter state: the attribute dictionary of the module object
    [m], and the C side. *)
Record interp : Type := {
  py_module : gmap string py_object;
  c_world : World
}.

Definition M (A : Type) : Type := interp -> A * interp.

Definition ret {A} (a : A) : M A := fun s => (a, s).

Definition bind {A B} (c : M A) (k : A -> M B) : M B :=
  fun s => let '(a, s') := c s in k a s'.

(** Sequencing that stops at the first exception. *)
Definition bind_result {A B} (c : M (py_result A)) (k : A -> M (py_result B))
  : M (py_result B) :=
  fun s =>
    match c s with
    | (Returned a, s') => k a s'
    | (Raised e, s') => (Raised e, s')
    end.

Notation "'let*' x ':=' c 'in' k" := (bind c (fun x => k))
  (at level 10, x name, c at level 100, k at level 200).
Notation "c >> k" := (bind c (fun _ => k))
  (at level 100, k at level 200, right associativity).
Notation "c >>? k" := (bind_result c (fun _ => k))
  (at level 100, k at level 200, right associativity).

Definition setattr (name : string) (v : py_object) : M unit :=
  fun s => (tt, {| py_module := <[name := v]> (py_module s);
                   c_world := c_world s |}).

Definition getattr (name : string) : M (option py_object) :=
  fun s => (py_module s !! name, s).

Definition call_extern {A} (f : World -> A * World) : M A :=
  fun s => let '(a, w) := f (c_world s) in
           (a, {| py_module := py_module s; c_world := w |}).

(** [m.doc() = d], [m.attr(name) = v] and [py::cast] of an integer. *)
Definition module_doc (d : string) : M unit := setattr "__doc__" (PyStr d).

Definition module_attr (name : string) (v : py_object) : M unit :=
  setattr name v.

Definition py_cast (z : Z) : py_object := PyInt z.

(** [m.def(name, &f, d)] first looks at what the module already has
    under [name] (pybind11's [sibling]).  A string or an integer there
    stops the definition, unless [name] starts with an underscore. *)
Definition starts_with_underscore (name : string) : bool :=
  match name with
  | String c _ => Ascii.eqb c "_"%char
  | EmptyString => false
  end.

Definition blocks_overload (sibling : option py_object) : bool :=
  match sibling with
  | Some (PyStr _) | Some (PyInt _) => true
  | _ => false
  end.

(** The chain the new function is appended to: the chain of a function
    defined earlier on this module, the empty chain otherwise (nothing
    there, [None], or a function of another scope, which is replaced). *)
Definition sibling_chain (sibling : option py_object) : list overload :=
  match sibling with
  | Some (PyCppFunction Scope_this_module chain) => chain
  | _ => []
  end.

Definition module_def (name : string) (f : World -> TSLanguage * World)
  (d : string) : M (py_result unit) :=
  fun s =>
    let sibling := py_module s !! name in
    if blocks_overload sibling && negb (starts_with_underscore name)
    then (Raised ImportError_overload, s)
    else (Returned tt,
          (setattr name
             (PyCppFunction Scope_this_module
                (sibling_chain sibling ++ [{| ov_impl := f; ov_doc := d |}])) s).2).

Definition language_doc : string :=
  "Get the Tree-sitter Language object for IFS Cloud PL/SQL".

(** binding.cc, lines 8-17: the body of [PYBIND11_MODULE(ifs_cloud_parser, m)]. *)
Definition pybind11_init_ifs_cloud_parser : M (py_result unit) :=
  module_doc "IFS Cloud PL/SQL Tree-sitter parser" >>
  module_def "language" tree_sitter_ifs_cloud_parser language_doc >>?
  module_attr "__version__" (PyStr "0.2.0") >>
  let* h := call_extern tree_sitter_ifs_cloud_parser in
  let* v := call_extern (tree_sitter_language_version h) in
  module_attr "LANGUAGE_VERSION" (py_cast v) >>
  ret (Returned tt).

(** Line 16 on its own, started in world [w]: the entry point, then
    [tree_sitter_language_version] on the handle it returned. *)
Definition version_at_import (w : World) : Z * World :=
  tree_sitter_language_version (tree_sitter_ifs_cloud_parser w).1
                               (tree_sitter_ifs_cloud_parser w).2.

(** The module object as [PyModule_Create] makes it for the name the macro
    is given: the name, and four attributes set to [None]. *)
Definition fresh_module : gmap string py_object :=
  <["__name__" := PyStr "ifs_cloud_parser"]>
    (<["__doc__" := PyNone]>
       (<["__package__" := PyNone]>
          (<["__loader__" := PyNone]>
             {[ "__spec__" := PyNone ]}))).

(** The module initialiser the macro defines, [PyInit_ifs_cloud_parser]:
    it creates the module object and runs the body on it.  This is the
    state when the initialiser returns; what the import machinery of the
    interpreter adds to the object afterwards ([__file__], the loader and
    the spec) is not part of it. *)
Definition import_module (w : World) : interp :=
  (pybind11_init_ifs_cloud_parser
     {| py_module := fresh_module; c_world := w |}).2.

(** A call from Python, in its two steps.  The dispatcher of a pybind11
    function runs the first overload that takes the arguments; here every
    overload takes none, so the first of the chain runs, and hands back
    its C++ return value. *)
Definition invoke (callee : option py_object) : M (py_result TSLanguage) :=
  match callee with
  | None => ret (Raised AttributeError)
  | Some (PyCppFunction _ []) => ret (Raised TypeError_no_overload)
  | Some (PyCppFunction _ (ov :: _)) =>
      let* h := call_extern (ov_impl ov) in ret (Returned h)
  | Some _ => ret (Raised TypeError_not_callable)
  end.

(** Then the return value is converted to a Python object.  pybind11
    converts a pointer to a class only if the class was registered with
    [py::class_]; [TSLanguage] is only forward-declared and the body
    registers nothing, [m.def] is given no return policy and no capsule is
    made, so the conversion of a [TSLanguage *] fails. *)
Definition cast_return (h : TSLanguage) : py_result py_object :=
  Raised TypeError_return_value.

Definition py_call (callee : option py_object) : M (py_result py_object) :=
  let* r := invoke callee in
  ret (match r with
       | Returned h => cast_return h
       | Raised e => Raised e
       end).

(** [ifs_cloud_parser.language()] as the host calls it, and the C++ half
    of that call alone: what the bound function returns to the
    dispatcher. *)
Definition language : M (py_result py_object) :=
  let* f := getattr "language" in py_call f.

Definition language_cxx_return : M (py_result TSLanguage) :=
  let* f := getattr "language" in invoke f.

Definition LANGUAGE_VERSION : M (option py_object) :=
  getattr "LANGUAGE_VERSION".

Definition __version__ : M (option py_object) :=
  getattr "__version__".

(** [n] successive calls of [language()], results dropped. *)
Fixpoint language_calls (n : nat) : M unit :=
  match n with
  | O => ret tt
  | S n' => language >> language_calls n'
  end.

(** The one overload line 11 defines. *)
Definition language_overload : overload :=
  {| ov_impl := tree_sitter_ifs_cloud_parser; ov_doc := language_doc |}.

(** The module object the initialiser leaves behind, read off the body. *)
Definition module_after_import (v : Z) : gmap string py_object :=
  <["LANGUAGE_VERSION" := PyInt v]>
    (<["__version__" := PyStr "0.2.0"]>
       (<["language" := PyCppFunction Scope_this_module [language_overload]]>
          (<["__doc__" := PyStr "IFS Cloud PL/SQL Tree-sitter parser"]>
             fresh_module))).

End Binding.

Arguments Build_overload {World TSLanguage} ov_impl ov_doc.
Arguments ov_impl {World TSLanguage} o.
Arguments ov_doc {World TSLanguage} o.
Arguments PyNone {World TSLanguage}.
Arguments PyStr {World TSLanguage} s.
Arguments PyInt {World TSLanguage} z.
Arguments PyCppFunction {World TSLanguage} scope chain.
Arguments py_module {World TSLanguage} i.
Arguments c_world {World TSLanguage} i.
Arguments Build_interp {World TSLanguage} py_module c_world.
Arguments blocks_overload {World TSLanguage} sibling.
Arguments sibling_chain {World TSLanguage} sibling.
Arguments fresh_module {World TSLanguage}.
Arguments import_module {World TSLanguage} _ _ w.
Arguments language {World TSLanguage}.
Arguments language_cxx_return {World TSLanguage}.
Arguments LANGUAGE_VERSION {World TSLanguage}.
Arguments __version__ {World TSLanguage}.
Arguments language_calls {World TSLanguage} n.
Arguments language_overload {World TSLanguage} _.
Arguments module_after_import {World TSLanguage} _ v.
Arguments version_at_import {World TSLanguage} _ _ w.

(* ===================================================================== *)
(** ** Concrete C sides *)
(* ===================================================================== *)

(** An instance to run the model on: the world is the log of the C
    functions called so far, the handle is an address, and the table's
    version is a field read through the handle. *)
Module Logged.

Definition World : Type := list string.
Definition TSLanguage : Type := Z.

Definition the_table : TSLanguage := 4096%Z.

Definition tree_sitter_ifs_cloud_parser (w : World) : TSLanguage * World :=
  (the_table, (w ++ ["tree_sitter_ifs_cloud_parser"])%list).

Definition tree_sitter_language_version (h : TSLanguage) (w : World)
  : Z * World :=
  ((if decide (h = the_table) then 14 else 0)%Z,
   (w ++ ["tree_sitter_language_version"])%list).

Definition imported : interp World TSLanguage :=
  import_module tree_sitter_ifs_cloud_parser tree_sitter_language_version [].

End Logged.

(** A C side whose entry point hands out a new table on every call: the
    world counts the calls, the handle is the count, and the version is
    read off the handle. *)
Module Counting.

Definition World : Type := Z.
Definition TSLanguage : Type := Z.

Definition tree_sitter_ifs_cloud_parser (w : World) : TSLanguage * World :=
  (w, (w + 1)%Z).

Definition tree_sitter_language_version (h : TSLanguage) (w : World)
  : Z * World :=
  ((100 + h)%Z, w).

Definition imported : interp World TSLanguage :=
  import_module tree_sitter_ifs_cloud_parser tree_sitter_language_version 0%Z.

End Counting.

(* ===================================================================== *)
(** ** The header as the preprocessor reads it *)
(* ===================================================================== *)

Module Header.

(** A text line of the header, by the tokens it holds:
    [typedef struct tag alias;], [extern "C" {], [}] and a function
    declaration. *)
Inductive c_item : Type :=
| Item_typedef_struct (tag alias : string)
| Item_extern_C_open
| Item_close_brace
| Item_fun_decl (ret : CDecl.c_type) (name : string) (params : CDecl.param_clause).

(** A line of a file: a conditional-inclusion directive, a [#define]
    without a body, a text line, or an empty line. *)
Inductive pp_line : Type :=
| Ifndef (m : string)
| Ifdef (m : string)
| Define (m : string)
| Endif
| Text (t : c_item)
| Blank.

Definition guard : string := "TREE_SITTER_IFS_CLOUD_PARSER_H_".

(** The identifiers and keywords a text line is written with; a macro of
    one of these names would be replaced in the line. *)
Fixpoint type_identifiers (t : CDecl.c_type) : list string :=
  match t with
  | CDecl.Tnamed id => [id]
  | CDecl.Tconst t' => "const" :: type_identifiers t'
  | CDecl.Tpointer t' => type_identifiers t'
  end.

Definition param_identifiers (p : CDecl.param_clause) : list string :=
  match p with
  | CDecl.Params_void => ["void"]
  | CDecl.Params_empty => []
  end.

Definition item_identifiers (t : c_item) : list string :=
  match t with
  | Item_typedef_struct tag alias => ["typedef"; "struct"; tag; alias]
  | Item_extern_C_open => ["extern"]
  | Item_close_brace => []
  | Item_fun_decl r name ps =>
      (type_identifiers r ++ name :: param_identifiers ps)%list
  end.

Definition line_identifiers (l : pp_line) : list string :=
  match l with
  | Text t => item_identifiers t
  | _ => []
  end.

(** What reading a file gives: a result, a preprocessing error (an
    [#endif] without its [#if], a conditional left open), or a text line
    that names a defined macro and would have to be macro-replaced, which
    is not modelled. *)
Inductive pp_result (A : Type) : Type :=
| Passed (a : A)
| Pp_error
| Pp_expansion.

Arguments Passed {A} a.
Arguments Pp_error {A}.
Arguments Pp_expansion {A}.

(** ifs_cloud_parser.h, its sixteen lines in order. *)
Definition ifs_cloud_parser_h : list pp_line :=
  [ Ifndef guard;
    Define guard;
    Blank;
    Text (Item_typedef_struct "TSLanguage" "TSLanguage");
    Blank;
    Ifdef "__cplusplus";
    Text Item_extern_C_open;
    Endif;
    Blank;
    Text (Item_fun_decl (CDecl.Tpointer (CDecl.Tconst (CDecl.Tnamed "TSLanguage")))
            "tree_sitter_ifs_cloud_parser" CDecl.Params_void);
    Blank;
    Ifdef "__cplusplus";
    Text Item_close_brace;
    Endif;
    Blank;
    Endif ].

(** The preprocessor while it reads a file: the macros defined so far, the
    open conditionals (innermost first, [true] for a group that is taken)
    and the text lines passed on. *)
Record pp_state : Type := {
  defined : gset string;
  conds : list bool;
  output : list c_item
}.

(** A line is processed when every enclosing group is taken. *)
Definition active (st : pp_state) : bool := forallb id (conds st).

(** No identifier of the text line is a defined macro. *)
Definition macro_free (D : gset string) (t : c_item) : bool :=
  forallb (fun x => negb (bool_decide (x ∈ D))) (item_identifiers t).

(** One line.  A text line of a group that is taken is passed on as it is
    written when none of its identifiers is a defined macro; the names in
    the directives themselves are never replaced. *)
Definition pp_step (l : pp_line) (st : pp_state) : pp_result pp_state :=
  match l with
  | Ifndef m =>
      Passed {| defined := defined st;
                conds := negb (bool_decide (m ∈ defined st)) :: conds st;
                output := output st |}
  | Ifdef m =>
      Passed {| defined := defined st;
                conds := bool_decide (m ∈ defined st) :: conds st;
                output := output st |}
  | Define m =>
      Passed (if active st
              then {| defined := {[ m ]} ∪ defined st;
                      conds := conds st;
                      output := output st |}
              else st)
  | Endif =>
      match conds st with
      | [] => Pp_error
      | _ :: cs => Passed {| defined := defined st; conds := cs; output := output st |}
      end
  | Text t =>
      if active st
      then if macro_free (defined st) t
           then Passed {| defined := defined st;
                          conds := conds st;
                          output := (output st ++ [t])%list |}
           else Pp_expansion
      else Passed st
  | Blank => Passed st
  end.

Fixpoint pp_lines (ls : list pp_line) (st : pp_state) : pp_result pp_state :=
  match ls with
  | [] => Passed st
  | l :: ls' =>
      match pp_step l st with
      | Passed st' => pp_lines ls' st'
      | Pp_error => Pp_error
      | Pp_expansion => Pp_expansion
      end
  end.

(** [#include] of a file when the macros [D] are defined: the macros
    defined afterwards and the text passed on. *)
Definition include (file : list pp_line) (D : gset string)
  : pp_result (gset string * list c_item) :=
  match pp_lines file {| defined := D; conds := []; output := [] |} with
  | Passed st =>
      match conds st with
      | [] => Passed (defined st, output st)
      | _ :: _ => Pp_error
      end
  | Pp_error => Pp_error
  | Pp_expansion => Pp_expansion
  end.

(** The same file included twice in one translation unit. *)
Definition include_twice (file : list pp_line) (D : gset string)
  : pp_result (gset string * list c_item) :=
  match include file D with
  | Passed (D1, out1) =>
      match include file D1 with
      | Passed (D2, out2) => Passed (D2, (out1 ++ out2)%list)
      | Pp_error => Pp_error
      | Pp_expansion => Pp_expansion
      end
  | Pp_error => Pp_error
  | Pp_expansion => Pp_expansion
  end.

(** The identifiers of the header's text lines, and the macro sets that
    define none of them. *)
Definition header_identifiers : list string :=
  flat_map line_identifiers ifs_cloud_parser_h.

Definition leaves_text_alone (D : gset string) : Prop :=
  forall x : string, In x header_identifiers -> x ∉ D.

(** The macro a compiler defines on its own: [__cplusplus] for C++. *)
Definition predefined (mode : CDecl.language_mode) : gset string :=
  match mode with
  | CDecl.Mode_C => ∅
  | CDecl.Mode_Cxx => {[ "__cplusplus" ]}
  end.

(** The linkage of a declaration at nesting depth [depth] of
    [extern "C" { }] blocks. *)
Definition linkage_at (mode : CDecl.language_mode) (depth : nat) : CDecl.linkage :=
  match mode, depth with
  | CDecl.Mode_C, _ => CDecl.Link_C
  | CDecl.Mode_Cxx, O => CDecl.Link_Cxx
  | CDecl.Mode_Cxx, S _ => CDecl.Link_C
  end.

(** The function declarations a sequence of text lines makes; [None] where
    the lines are not well formed: [extern "C"] in C, a brace that closes
    nothing, a block left open. *)
Fixpoint declare (mode : CDecl.language_mode) (depth : nat) (items : list c_item)
  : option (list CDecl.fun_decl) :=
  match items with
  | [] => match depth with O => Some [] | S _ => None end
  | Item_typedef_struct _ _ :: rest => declare mode depth rest
  | Item_extern_C_open :: rest =>
      match mode with
      | CDecl.Mode_C => None
      | CDecl.Mode_Cxx => declare mode (S depth) rest
      end
  | Item_close_brace :: rest =>
      match depth with
      | O => None
      | S d => declare mode d rest
      end
  | Item_fun_decl r name ps :: rest =>
      match declare mode depth rest with
      | Some ds =>
          Some ({| CDecl.decl_mode := mode;
                   CDecl.decl_linkage := linkage_at mode depth;
                   CDecl.decl_ret := r;
                   CDecl.decl_name := name;
                   CDecl.decl_params := ps |} :: ds)
      | None => None
      end
  end.

(** The text the header passes on, by the language it is read as. *)
Definition header_text (mode : CDecl.language_mode) : list c_item :=
  let decl := Item_fun_decl (CDecl.Tpointer (CDecl.Tconst (CDecl.Tnamed "TSLanguage")))
                "tree_sitter_ifs_cloud_parser" CDecl.Params_void in
  match mode with
  | CDecl.Mode_C => [Item_typedef_struct "TSLanguage" "TSLanguage"; decl]
  | CDecl.Mode_Cxx =>
      [Item_typedef_struct "TSLanguage" "TSLanguage"; Item_extern_C_open; decl;
       Item_close_brace]
  end.

End Header.

(** The attributes the body of the extension module assigns. *)
Definition assigned_names : gset string :=
  {[ "__doc__"; "language"; "__version__"; "LANGUAGE_VERSION" ]}.

(* ===================================================================== *)
(** ** The two declarations of the entry point *)
(* ===================================================================== *)

Lemma header_symbol (mode : CDecl.language_mode) :
  CDecl.link_symbol (CDecl.ifs_cloud_parser_h mode) = Some "tree_sitter_ifs_cloud_parser".
Proof. reflexivity. Qed.

Lemma header_params (mode : CDecl.language_mode) :
  CDecl.ft_params (CDecl.type_of_decl (CDecl.ifs_cloud_parser_h mode)) = Some [].
Proof. destruct mode; reflexivity. Qed.

(** C2. The header and binding.cc declare the same symbol with C linkage
    and the same (empty) parameter list, but not the same function type:
    the header returns [const TSLanguage *], binding.cc returns
    [TSLanguage *]. The two return types agree only once the qualifier is
    removed. *)
Theorem entry_point_declarations_differ_in_const (mode : CDecl.language_mode) :
  CDecl.link_symbol (CDecl.ifs_cloud_parser_h mode) = CDecl.link_symbol CDecl.binding_cc /\
  CDecl.link_symbol CDecl.binding_cc = Some "tree_sitter_ifs_cloud_parser" /\
  CDecl.ft_params (CDecl.type_of_decl (CDecl.ifs_cloud_parser_h mode)) =
    CDecl.ft_params (CDecl.type_of_decl CDecl.binding_cc) /\
  CDecl.ft_params (CDecl.type_of_decl CDecl.binding_cc) = Some [] /\
  CDecl.ft_ret (CDecl.type_of_decl (CDecl.ifs_cloud_parser_h mode)) =
    CDecl.Tpointer (CDecl.Tconst CDecl.TSLanguage) /\
  CDecl.ft_ret (CDecl.type_of_decl CDecl.binding_cc) = CDecl.Tpointer CDecl.TSLanguage /\
  CDecl.strip_const (CDecl.ft_ret (CDecl.type_of_decl (CDecl.ifs_cloud_parser_h mode))) =
    CDecl.ft_ret (CDecl.type_of_decl CDecl.binding_cc) /\
  ~ CDecl.same_entry_point (CDecl.ifs_cloud_parser_h mode) CDecl.binding_cc.
Proof.
  split; [reflexivity | ]. split; [reflexivity | ].
  split; [destruct mode; reflexivity | ].
  do 4 (split; [reflexivity | ]).
  intros (_ & _ & Hty).
  apply (f_equal CDecl.ft_ret) in Hty. cbn in Hty. discriminate Hty.
Qed.

(* ===================================================================== *)
(** ** The extension module *)
(* ===================================================================== *)

Section BindingFacts.

Context {World TSLanguage : Type}.
Variable tree_sitter_ifs_cloud_parser : World -> TSLanguage * World.
Variable tree_sitter_language_version : TSLanguage -> World -> Z * World.

Abbreviation import := (import_module tree_sitter_ifs_cloud_parser tree_sitter_language_version).
Abbreviation module_of := (module_after_import tree_sitter_ifs_cloud_parser).
Abbreviation import_version :=
  (version_at_import tree_sitter_ifs_cloud_parser tree_sitter_language_version).
Abbreviation entry_overload := (language_overload tree_sitter_ifs_cloud_parser).

(** The body on any module object: it stops at line 11 when [language]
    is already a string or an integer, having set [__doc__] only and
    called no C function; otherwise it runs to its end. *)
Lemma init_body_run (m0 : gmap string (py_object World TSLanguage)) (w : World) :
  pybind11_init_ifs_cloud_parser World TSLanguage
    tree_sitter_ifs_cloud_parser tree_sitter_language_version
    {| py_module := m0; c_world := w |} =
  if blocks_overload (m0 !! "language")
  then (Raised ImportError_overload,
        {| py_module := <["__doc__" := PyStr "IFS Cloud PL/SQL Tree-sitter parser"]> m0;
           c_world := w |})
  else (Returned tt,
        {| py_module :=
             <["LANGUAGE_VERSION" := PyInt (import_version w).1]>
               (<["__version__" := PyStr "0.2.0"]>
                  (<["language" :=
                       PyCppFunction Scope_this_module
                         (sibling_chain (m0 !! "language") ++ [entry_overload])]>
                     (<["__doc__" := PyStr "IFS Cloud PL/SQL Tree-sitter parser"]> m0)));
           c_world := (import_version w).2 |}).
Proof.
  unfold pybind11_init_ifs_cloud_parser, version_at_import, language_overload,
    module_doc, module_def, module_attr, setattr, call_extern, bind, bind_result,
    py_cast, ret.
  cbn [py_module c_world snd fst].
  rewrite (lookup_insert_ne m0 "__doc__" "language") by discriminate.
  destruct (blocks_overload (m0 !! "language")); cbn; [reflexivity | ].
  destruct (tree_sitter_ifs_cloud_parser w) as [h w1]. cbn.
  destruct (tree_sitter_language_version h w1) as [v w2]. reflexivity.
Qed.

Lemma fresh_module_language :
  (fresh_module : gmap string (py_object World TSLanguage)) !! "language" = None.
Proof. unfold fresh_module. by simplify_map_eq. Qed.

(** Running the initialiser: the module object gets its attributes, the C
    side sees one call of the entry point followed by one call of
    [tree_sitter_language_version]. *)
Lemma import_module_unfold (w : World) :
  import w = {| py_module := module_of (import_version w).1;
                c_world := (import_version w).2 |}.
Proof.
  unfold import_module. rewrite init_body_run, fresh_module_language.
  reflexivity.
Qed.

Lemma module_lookup_language (v : Z) :
  module_of v !! "language" = Some (PyCppFunction Scope_this_module [entry_overload]).
Proof. unfold module_after_import. by simplify_map_eq. Qed.

Lemma module_lookup_version (v : Z) :
  module_of v !! "__version__" = Some (PyStr "0.2.0").
Proof. unfold module_after_import. by simplify_map_eq. Qed.

Lemma module_lookup_LANGUAGE_VERSION (v : Z) :
  module_of v !! "LANGUAGE_VERSION" = Some (PyInt v).
Proof. unfold module_after_import. by simplify_map_eq. Qed.

(** The C++ half of a call on a module whose [language] is a pybind11
    function: the first overload runs on the C side. *)
Lemma language_cxx_run (m : gmap string (py_object World TSLanguage))
    (sc : fn_scope) (ov : overload World TSLanguage)
    (rest : list (overload World TSLanguage)) (w : World) :
  m !! "language" = Some (PyCppFunction sc (ov :: rest)) ->
  language_cxx_return {| py_module := m; c_world := w |} =
    (Returned (ov_impl ov w).1, {| py_module := m; c_world := (ov_impl ov w).2 |}).
Proof.
  intros Hm. unfold language_cxx_return, getattr, bind, invoke. cbn. rewrite Hm.
  unfold bind, call_extern, ret. cbn. destruct (ov_impl ov w) as [h w']. reflexivity.
Qed.

(** The whole call: after the C++ function has run, the conversion of its
    result fails. *)
Lemma language_run (m : gmap string (py_object World TSLanguage))
    (sc : fn_scope) (ov : overload World TSLanguage)
    (rest : list (overload World TSLanguage)) (w : World) :
  m !! "language" = Some (PyCppFunction sc (ov :: rest)) ->
  language {| py_module := m; c_world := w |} =
    (Raised TypeError_return_value,
     {| py_module := m; c_world := (ov_impl ov w).2 |}).
Proof.
  intros Hm. unfold language, getattr, bind, py_call, invoke. cbn. rewrite Hm.
  unfold bind, call_extern, ret, cast_return. cbn.
  destruct (ov_impl ov w) as [h w']. reflexivity.
Qed.

(** A call never writes the module object, whatever it holds. *)
Lemma language_keeps_module (s : interp World TSLanguage) :
  py_module (language s).2 = py_module s.
Proof.
  unfold language, getattr, bind, py_call, invoke. cbn.
  destruct (py_module s !! "language") as [[ | | | sc [ | ov rest]] | ];
    cbn; try reflexivity.
  unfold bind, call_extern, ret. destruct (ov_impl ov (c_world s)); reflexivity.
Qed.

Lemma language_calls_keep_module (n : nat) (s : interp World TSLanguage) :
  py_module (language_calls n s).2 = py_module s.
Proof.
  revert s. induction n as [ | n IH]; intros s; [reflexivity | ].
  cbn [language_calls]. unfold bind.
  pose proof (language_keeps_module s) as Hs.
  destruct (language s) as [r s']. rewrite IH. exact Hs.
Qed.

(** C1. After the import, and after any number of earlier calls, the
    module's [language] attribute is a function whose one overload is the
    C function [tree_sitter_ifs_cloud_parser]; a call in any state of the
    C side runs that function once, which returns its handle to the
    dispatcher and changes the C side as it does, and leaves the module as
    it was; but the handle does not reach the caller: with no conversion
    for [TSLanguage *] the call ends in a TypeError. *)
Theorem language_call_raises_TypeError (w0 w : World) (n : nat) :
  let m := py_module (language_calls n (import w0)).2 in
  m !! "language" = Some (PyCppFunction Scope_this_module [entry_overload]) /\
  language_cxx_return {| py_module := m; c_world := w |} =
    (Returned (tree_sitter_ifs_cloud_parser w).1,
     {| py_module := m; c_world := (tree_sitter_ifs_cloud_parser w).2 |}) /\
  language {| py_module := m; c_world := w |} =
    (Raised TypeError_return_value,
     {| py_module := m; c_world := (tree_sitter_ifs_cloud_parser w).2 |}).
Proof.
  cbn zeta. rewrite language_calls_keep_module, import_module_unfold.
  cbn [py_module]. split; [apply module_lookup_language | ]. split.
  - apply (language_cxx_run _ Scope_this_module entry_overload []).
    apply module_lookup_language.
  - apply (language_run _ Scope_this_module entry_overload []).
    apply module_lookup_language.
Qed.


(** C10. The import sets [__version__] to the string "0.2.0" and
    [LANGUAGE_VERSION] to the integer from one call of the entry point
    followed by one call of [tree_sitter_language_version], which are
    all the import does to the C side; after any number [n] of calls of
    [language()] both attributes still read as they did right after the
    import, and reading them changes nothing. *)
Theorem metadata_fixed_at_import (w0 : World) (n : nat) :
  let s0 := import w0 in
  let sn := (language_calls n s0).2 in
  __version__ s0 = (Some (PyStr "0.2.0"), s0) /\
  LANGUAGE_VERSION s0 = (Some (PyInt (import_version w0).1), s0) /\
  c_world s0 = (import_version w0).2 /\
  __version__ sn = ((__version__ s0).1, sn) /\
  LANGUAGE_VERSION sn = ((LANGUAGE_VERSION s0).1, sn).
Proof.
  cbn zeta. unfold __version__, LANGUAGE_VERSION, getattr. cbn [fst].
  rewrite language_calls_keep_module.
  assert (py_module (import w0) = module_of (import_version w0).1) as Hm
    by (rewrite import_module_unfold; reflexivity).
  assert (c_world (import w0) = (import_version w0).2) as Hw
    by (rewrite import_module_unfold; reflexivity).
  rewrite Hm, Hw, module_lookup_version, module_lookup_LANGUAGE_VERSION.
  repeat split.
Qed.

End BindingFacts.

(* ===================================================================== *)
(** ** The model run on concrete C sides *)
(* ===================================================================== *)

(** The import calls each of the two C functions once, in this order. *)
Example logged_import_calls :
  c_world Logged.imported =
    ["tree_sitter_ifs_cloud_parser"; "tree_sitter_language_version"].
Proof. reflexivity. Qed.

Example logged_import_attributes :
  (__version__ Logged.imported).1 = Some (PyStr "0.2.0") /\
  (LANGUAGE_VERSION Logged.imported).1 = Some (PyInt 14).
Proof. split; vm_compute; reflexivity. Qed.

(** One call of [language()]: the entry point runs, which the log shows,
    and returns the table's address to the dispatcher; the caller gets a
    TypeError. *)
Example logged_language_call :
  (language Logged.imported).1 = Raised TypeError_return_value /\
  (language_cxx_return Logged.imported).1 = Returned Logged.the_table /\
  c_world (language Logged.imported).2 =
    ["tree_sitter_ifs_cloud_parser"; "tree_sitter_language_version";
     "tree_sitter_ifs_cloud_parser"].
Proof. repeat split; vm_compute; reflexivity. Qed.

Example logged_three_calls :
  let s := (language_calls 3 Logged.imported).2 in
  (__version__ s).1 = Some (PyStr "0.2.0") /\
  (LANGUAGE_VERSION s).1 = Some (PyInt 14) /\
  length (c_world s) = 5.
Proof. repeat split; vm_compute; reflexivity. Qed.

(** An attribute that was never bound cannot be called. *)
Example unbound_language_call :
  language {| py_module := (∅ : gmap string (py_object Logged.World Logged.TSLanguage));
              c_world := [] |} =
    (Raised AttributeError, {| py_module := ∅; c_world := [] |}).
Proof. reflexivity. Qed.



(* ===================================================================== *)
(** ** The header: include guard and linkage *)
(* ===================================================================== *)

Lemma cplusplus_after_guard (D : gset string) :
  bool_decide ("__cplusplus" ∈ ({[ Header.guard ]} ∪ D : gset string)) =
  bool_decide ("__cplusplus" ∈ D).
Proof.
  apply bool_decide_ext. rewrite elem_of_union, elem_of_singleton.
  split; [intros [Heq | Hin]; [discriminate Heq | exact Hin] | intros Hin; right; exact Hin].
Qed.

(** With the guard defined on top of macros that leave the text alone, no
    identifier of a text line is a defined macro. *)
Lemma free_after_guard (D : gset string) (x : string) :
  Header.leaves_text_alone D ->
  In x Header.header_identifiers ->
  bool_decide (x ∈ ({[ Header.guard ]} ∪ D : gset string)) = false.
Proof.
  intros HD Hx. apply bool_decide_eq_false_2.
  rewrite elem_of_union, elem_of_singleton. intros [-> | Hin].
  - cbn in Hx. repeat (destruct Hx as [Hx | Hx]; [discriminate Hx | ]). exact Hx.
  - exact (HD x Hx Hin).
Qed.

Ltac pp_tests :=
  repeat match goal with
         | H : bool_decide _ = _ |- _ => rewrite H
         end.

Ltac pp_run :=
  unfold Header.include, Header.ifs_cloud_parser_h;
  repeat progress
    (cbn -[bool_decide elem_of union singleton Header.guard]; pp_tests).

(** The header read when its guard macro is already defined: every line is
    skipped. *)
Lemma include_guarded (D : gset string) :
  Header.guard ∈ D ->
  Header.include Header.ifs_cloud_parser_h D = Header.Passed (D, []).
Proof.
  intros Hin.
  pose proof (bool_decide_eq_true_2 _ Hin) as Hg.
  destruct (bool_decide ("__cplusplus" ∈ D)) eqn:Hc; pp_run; reflexivity.
Qed.

(** The header read when its guard macro is not defined and no macro
    touches its text: the guard gets defined, the typedef and the
    declaration are passed on, and the [extern "C"] braces with them
    exactly when [__cplusplus] is defined. *)
Lemma include_fresh (D : gset string) :
  Header.guard ∉ D ->
  Header.leaves_text_alone D ->
  Header.include Header.ifs_cloud_parser_h D =
    Header.Passed ({[ Header.guard ]} ∪ D,
            Header.header_text
              (if bool_decide ("__cplusplus" ∈ D) then CDecl.Mode_Cxx else CDecl.Mode_C)).
Proof.
  intros Hnin HD.
  pose proof (bool_decide_eq_false_2 _ Hnin) as Hg.
  pose proof (cplusplus_after_guard D) as Hc.
  pose proof (free_after_guard D "typedef" HD ltac:(cbn; tauto)) as H1.
  pose proof (free_after_guard D "struct" HD ltac:(cbn; tauto)) as H2.
  pose proof (free_after_guard D "TSLanguage" HD ltac:(cbn; tauto)) as H3.
  pose proof (free_after_guard D "extern" HD ltac:(cbn; tauto)) as H4.
  pose proof (free_after_guard D "const" HD ltac:(cbn; tauto)) as H5.
  pose proof (free_after_guard D "tree_sitter_ifs_cloud_parser" HD ltac:(cbn; tauto)) as H6.
  pose proof (free_after_guard D "void" HD ltac:(cbn; tauto)) as H7.
  destruct (bool_decide ("__cplusplus" ∈ D)); pp_run; reflexivity.
Qed.

Lemma leaves_text_alone_NDEBUG : Header.leaves_text_alone {[ "NDEBUG" ]}.
Proof.
  intros x Hx. rewrite elem_of_singleton. intros ->.
  cbn in Hx. repeat (destruct Hx as [Hx | Hx]; [discriminate Hx | ]). exact Hx.
Defined.

(** X1. When no defined macro is named like an identifier of the header's
    text lines, the header reads without a preprocessing error, leaves its
    guard macro defined as the only new macro, and including it a second
    time in the same translation unit adds nothing: two inclusions give
    what one gives. *)
Theorem header_included_twice (D : gset string) :
  Header.leaves_text_alone D ->
  Header.include_twice Header.ifs_cloud_parser_h D =
    Header.include Header.ifs_cloud_parser_h D /\
  exists text : list Header.c_item,
    Header.include Header.ifs_cloud_parser_h D = Header.Passed ({[ Header.guard ]} ∪ D, text).
Proof.
  intros HD. unfold Header.include_twice.
  destruct (decide (Header.guard ∈ D)) as [Hin | Hnin].
  - rewrite (include_guarded D Hin), (include_guarded D Hin). split; [reflexivity | ].
    exists []. f_equal. f_equal. apply set_eq. intros x.
    rewrite elem_of_union, elem_of_singleton. split; [auto | intros [-> | Hx]; assumption].
  - rewrite (include_fresh D Hnin HD).
    rewrite include_guarded
      by (rewrite elem_of_union, elem_of_singleton; left; reflexivity).
    rewrite app_nil_r. split; [reflexivity | eauto].
Qed.

Lemma header_included_twice_witness :
  Header.include_twice Header.ifs_cloud_parser_h {[ "NDEBUG" ]} =
    Header.include Header.ifs_cloud_parser_h {[ "NDEBUG" ]} /\
  exists text : list Header.c_item,
    Header.include Header.ifs_cloud_parser_h {[ "NDEBUG" ]} =
      Header.Passed ({[ Header.guard ]} ∪ {[ "NDEBUG" ]}, text).
Proof.
  apply (header_included_twice {[ "NDEBUG" ]}). exact leaves_text_alone_NDEBUG.
Defined.

(** X2. Read as C or as C++ (the compiler's own [__cplusplus] apart, no
    macro of that name, no guard macro and no macro named like an
    identifier of the text defined beforehand), the header makes exactly
    one function declaration, the one of [tree_sitter_ifs_cloud_parser]
    with C linkage in either language; the [extern "C"] braces are passed
    on for C++ only, so the text is well formed in both. *)
Theorem header_declares_entry_point (mode : CDecl.language_mode) (D : gset string) :
  Header.guard ∉ D ->
  "__cplusplus" ∉ D ->
  Header.leaves_text_alone D ->
  Header.include Header.ifs_cloud_parser_h (Header.predefined mode ∪ D) =
    Header.Passed ({[ Header.guard ]} ∪ (Header.predefined mode ∪ D), Header.header_text mode) /\
  Header.declare mode 0 (Header.header_text mode) =
    Some [CDecl.ifs_cloud_parser_h mode].
Proof.
  intros Hg Hc HD.
  split; [ | destruct mode; reflexivity].
  rewrite include_fresh.
  - destruct mode; cbn [Header.predefined].
    + rewrite bool_decide_eq_false_2; [reflexivity | ].
      rewrite elem_of_union. intros [Hin | Hin]; [ | exact (Hc Hin)].
      exact (not_elem_of_empty (C := gset string) _ Hin).
    + rewrite bool_decide_eq_true_2; [reflexivity | ].
      rewrite elem_of_union, elem_of_singleton. left. reflexivity.
  - rewrite elem_of_union. intros [Hin | Hin]; [ | exact (Hg Hin)].
    destruct mode; cbn [Header.predefined] in Hin.
    + exact (not_elem_of_empty (C := gset string) _ Hin).
    + apply elem_of_singleton in Hin. discriminate Hin.
  - intros x Hx. rewrite elem_of_union. intros [Hin | Hin]; [ | exact (HD x Hx Hin)].
    destruct mode; cbn [Header.predefined] in Hin.
    + exact (not_elem_of_empty (C := gset string) _ Hin).
    + apply elem_of_singleton in Hin. subst x.
      cbn in Hx. repeat (destruct Hx as [Hx | Hx]; [discriminate Hx | ]). exact Hx.
Qed.

Lemma header_declares_entry_point_witness :
  Header.include Header.ifs_cloud_parser_h
    (Header.predefined CDecl.Mode_Cxx ∪ {[ "NDEBUG" ]}) =
    Header.Passed ({[ Header.guard ]} ∪ (Header.predefined CDecl.Mode_Cxx ∪ {[ "NDEBUG" ]}),
            Header.header_text CDecl.Mode_Cxx) /\
  Header.declare CDecl.Mode_Cxx 0 (Header.header_text CDecl.Mode_Cxx) =
    Some [CDecl.ifs_cloud_parser_h CDecl.Mode_Cxx].
Proof.
  apply (header_declares_entry_point CDecl.Mode_Cxx {[ "NDEBUG" ]}).
  - rewrite elem_of_singleton. discriminate.
  - rewrite elem_of_singleton. discriminate.
  - exact leaves_text_alone_NDEBUG.
Defined.

(** The header run on concrete macro sets: as C, and with macros that
    would rewrite or break its text, where the model stops. *)
Example header_as_C :
  Header.include Header.ifs_cloud_parser_h ∅ =
    Header.Passed ({[ Header.guard ]} ∪ ∅, Header.header_text CDecl.Mode_C).
Proof.
  apply include_fresh.
  - apply not_elem_of_empty.
  - intros x _. apply not_elem_of_empty.
Qed.

Example header_with_const_macro :
  Header.include Header.ifs_cloud_parser_h {[ "const" ]} = Header.Pp_expansion.
Proof. vm_compute. reflexivity. Qed.

Example header_with_entry_point_macro :
  Header.include Header.ifs_cloud_parser_h {[ "tree_sitter_ifs_cloud_parser" ]} =
    Header.Pp_expansion.
Proof. vm_compute. reflexivity. Qed.

Example header_text_of_Cxx_is_not_C :
  Header.declare CDecl.Mode_C 0 (Header.header_text CDecl.Mode_Cxx) = None.
Proof. reflexivity. Qed.

(* ===================================================================== *)
(** ** The body of the extension module on any module object *)
(* ===================================================================== *)

Section BindingFrame.

Context {World TSLanguage : Type}.
Variable tree_sitter_ifs_cloud_parser : World -> TSLanguage * World.
Variable tree_sitter_language_version : TSLanguage -> World -> Z * World.

Abbreviation init_body :=
  (pybind11_init_ifs_cloud_parser World TSLanguage
     tree_sitter_ifs_cloud_parser tree_sitter_language_version).
Abbreviation imported_at :=
  (import_module tree_sitter_ifs_cloud_parser tree_sitter_language_version).


(** X7. Run on a module object that already holds a string or an integer
    under [language], the body stops at line 11 with an import error: it
    has set [__doc__] and nothing else, so [__version__] and
    [LANGUAGE_VERSION] are not assigned, and no C function has been
    called. *)
Theorem init_body_stops_at_def (m0 : gmap string (py_object World TSLanguage))
    (w : World) :
  blocks_overload (m0 !! "language") = true ->
  init_body {| py_module := m0; c_world := w |} =
    (Raised ImportError_overload,
     {| py_module := <["__doc__" := PyStr "IFS Cloud PL/SQL Tree-sitter parser"]> m0;
        c_world := w |}) /\
  py_module (init_body {| py_module := m0; c_world := w |}).2 !! "__version__" =
    m0 !! "__version__" /\
  py_module (init_body {| py_module := m0; c_world := w |}).2 !! "LANGUAGE_VERSION" =
    m0 !! "LANGUAGE_VERSION" /\
  py_module (init_body {| py_module := m0; c_world := w |}).2 !! "language" =
    m0 !! "language".
Proof.
  intros Hblocks. rewrite init_body_run, Hblocks. cbn [snd py_module].
  split; [reflexivity | ].
  rewrite !lookup_insert_ne by discriminate. repeat split.
Qed.

(** X4. Run on any module object, the body leaves every attribute other
    than the four it assigns as it was. *)
Theorem init_body_frame (m0 : gmap string (py_object World TSLanguage)) (w : World)
    (name : string) :
  name ∉ assigned_names ->
  py_module (init_body {| py_module := m0; c_world := w |}).2 !! name = m0 !! name.
Proof.
  unfold assigned_names. rewrite !elem_of_union, !elem_of_singleton. intros Hname.
  rewrite init_body_run.
  destruct (blocks_overload (m0 !! "language")); cbn [snd py_module];
    rewrite !lookup_insert_ne by (intros <-; tauto); reflexivity.
Qed.

(** Calls on a module whose [language] is a pybind11 function. *)
Lemma language_calls_run (m : gmap string (py_object World TSLanguage))
    (sc : fn_scope) (ov : overload World TSLanguage)
    (rest : list (overload World TSLanguage)) (n : nat) (w : World) :
  m !! "language" = Some (PyCppFunction sc (ov :: rest)) ->
  language_calls n {| py_module := m; c_world := w |} =
    (tt, {| py_module := m; c_world := Nat.iter n (fun w' => (ov_impl ov w').2) w |}).
Proof.
  intros Hm. revert w. induction n as [ | n IH]; intros w; [reflexivity | ].
  cbn [language_calls]. unfold bind.
  rewrite (language_run m sc ov rest w Hm), IH. f_equal. f_equal.
  symmetry. exact (Nat.iter_succ_r n (fun w' => (ov_impl ov w').2) w).
Qed.

(** X5. After the import, [n] calls of [language()] leave the module
    object as the import left it and act on the C side as [n] successive
    calls of [tree_sitter_ifs_cloud_parser], each started where the one
    before ended, and as nothing else. *)
Theorem language_calls_after_import (w0 : World) (n : nat) :
  language_calls n (imported_at w0) =
    (tt, {| py_module := py_module (imported_at w0);
            c_world := Nat.iter n (fun w => (tree_sitter_ifs_cloud_parser w).2)
                         (c_world (imported_at w0)) |}).
Proof.
  pose proof (language_calls_run (py_module (imported_at w0)) Scope_this_module
                (language_overload tree_sitter_ifs_cloud_parser) [] n
                (c_world (imported_at w0))) as Hrun.
  cbn [ov_impl language_overload] in Hrun. rewrite <- Hrun.
  - destruct (imported_at w0); reflexivity.
  - rewrite import_module_unfold. apply module_lookup_language.
Qed.


End BindingFrame.


Lemma init_body_stops_at_def_witness :
  pybind11_init_ifs_cloud_parser Logged.World Logged.TSLanguage
    Logged.tree_sitter_ifs_cloud_parser Logged.tree_sitter_language_version
    {| py_module := {[ "language" := PyInt 7 ]}; c_world := [] |} =
    (Raised ImportError_overload,
     {| py_module :=
          <["__doc__" := PyStr "IFS Cloud PL/SQL Tree-sitter parser"]>
            {[ "language" := PyInt 7 ]};
        c_world := [] |}) /\
  py_module
    (pybind11_init_ifs_cloud_parser Logged.World Logged.TSLanguage
       Logged.tree_sitter_ifs_cloud_parser Logged.tree_sitter_language_version
       {| py_module := {[ "language" := PyInt 7 ]}; c_world := [] |}).2 !! "__version__" =
    ({[ "language" := PyInt 7 ]} : gmap string (py_object Logged.World Logged.TSLanguage))
      !! "__version__" /\
  py_module
    (pybind11_init_ifs_cloud_parser Logged.World Logged.TSLanguage
       Logged.tree_sitter_ifs_cloud_parser Logged.tree_sitter_language_version
       {| py_module := {[ "language" := PyInt 7 ]}; c_world := [] |}).2 !! "LANGUAGE_VERSION" =
    ({[ "language" := PyInt 7 ]} : gmap string (py_object Logged.World Logged.TSLanguage))
      !! "LANGUAGE_VERSION" /\
  py_module
    (pybind11_init_ifs_cloud_parser Logged.World Logged.TSLanguage
       Logged.tree_sitter_ifs_cloud_parser Logged.tree_sitter_language_version
       {| py_module := {[ "language" := PyInt 7 ]}; c_world := [] |}).2 !! "language" =
    ({[ "language" := PyInt 7 ]} : gmap string (py_object Logged.World Logged.TSLanguage))
      !! "language".
Proof.
  apply (init_body_stops_at_def Logged.tree_sitter_ifs_cloud_parser
           Logged.tree_sitter_language_version {[ "language" := PyInt 7 ]} []).
  reflexivity.
Defined.

Lemma init_body_frame_witness :
  py_module
    (pybind11_init_ifs_cloud_parser Logged.World Logged.TSLanguage
       Logged.tree_sitter_ifs_cloud_parser Logged.tree_sitter_language_version
       {| py_module := {[ "parse" := PyInt 7 ]}; c_world := [] |}).2 !! "parse" =
    ({[ "parse" := PyInt 7 ]} : gmap string (py_object Logged.World Logged.TSLanguage))
      !! "parse".
Proof.
  apply (init_body_frame Logged.tree_sitter_ifs_cloud_parser
           Logged.tree_sitter_language_version {[ "parse" := PyInt 7 ]} [] "parse").
  unfold assigned_names. rewrite !elem_of_union, !elem_of_singleton.
  intros [[[H | H] | H] | H]; discriminate H.
Defined.

(** The body on module objects that already have a [language]: a function
    defined earlier on this module is kept as the first overload, so a
    call runs it and not the entry point; a function from elsewhere is
    replaced. *)
Example def_after_own_function :
  py_module
    (pybind11_init_ifs_cloud_parser Logged.World Logged.TSLanguage
       Logged.tree_sitter_ifs_cloud_parser Logged.tree_sitter_language_version
       {| py_module :=
            {[ "language" :=
                 PyCppFunction Scope_this_module
                   [Build_overload (fun w => (7%Z, w)) "earlier"] ]};
          c_world := [] |}).2 !! "language" =
    Some (PyCppFunction Scope_this_module
            [Build_overload (fun w => (7%Z, w)) "earlier";
             language_overload Logged.tree_sitter_ifs_cloud_parser]).
Proof.
  rewrite init_body_run, lookup_singleton_eq.
  cbn [blocks_overload sibling_chain snd py_module app].
  rewrite lookup_insert_ne by discriminate.
  rewrite lookup_insert_ne by discriminate.
  rewrite lookup_insert_eq. reflexivity.
Qed.

Example def_after_foreign_function :
  py_module
    (pybind11_init_ifs_cloud_parser Logged.World Logged.TSLanguage
       Logged.tree_sitter_ifs_cloud_parser Logged.tree_sitter_language_version
       {| py_module :=
            {[ "language" :=
                 PyCppFunction Scope_elsewhere
                   [Build_overload (fun w => (7%Z, w)) "foreign"] ]};
          c_world := [] |}).2 !! "language" =
    Some (PyCppFunction Scope_this_module
            [language_overload Logged.tree_sitter_ifs_cloud_parser]).
Proof.
  rewrite init_body_run, lookup_singleton_eq.
  cbn [blocks_overload sibling_chain snd py_module app].
  rewrite lookup_insert_ne by discriminate.
  rewrite lookup_insert_ne by discriminate.
  rewrite lookup_insert_eq. reflexivity.
Qed.
